(** * Video-converter: the conversion orchestration engine of [VC135.py]

    A shallow embedding of the scan / dispatch / execute / dispose pipeline
    of [VideoConverterApp] and of the module-level helpers it relies on
    ([validate_settings], [load_settings], [get_supported_encoders]),
    together with the properties of the engine stated in the specification.

    Conventions.
    - Python [str] is [string] (byte strings; file names are taken to be
      ASCII, so [str.lower] only touches the letters A..Z).
    - [os.path] is [posixpath].
    - Python exceptions are values of [exn]; a computation that may raise
      returns [res A], and effectful code runs in the monad [M] over the
      mutable state [World].
    - Every interaction with the outside (the clock, child processes, the
      outcome of file-system calls that may fail, the stop event) is read
      from an explicit environment record, so each function is a total,
      executable Rocq function. *)

From Stdlib Require Import ZArith Ascii String List Bool Lia DecimalString.
From stdpp Require Import gmap strings list.

Local Open Scope Z_scope.

(* ===================================================================== *)
(** * Exceptions and results *)
(* ===================================================================== *)

(** The exception classes that the modelled code raises or catches.
    [FileNotFoundError] is a subclass of [OSError] in Python; [is_OSError]
    and [is_CalledProcessError] decide the [except] clauses. *)
Inductive exn : Type :=
  | FileNotFoundError
  | OSError
  | CalledProcessError (returncode : Z) (stderr : string)
  | ValueError
  | TypeError
  | ValidationError
  | JSONDecodeError.

Definition is_OSError (e : exn) : bool :=
  match e with FileNotFoundError | OSError => true | _ => false end.

Definition is_CalledProcessError (e : exn) : bool :=
  match e with CalledProcessError _ _ => true | _ => false end.

Definition is_FileNotFoundError (e : exn) : bool :=
  match e with FileNotFoundError => true | _ => false end.

Inductive res (A : Type) : Type :=
  | Val (a : A)
  | Exc (e : exn).
Arguments Val {A} a.
Arguments Exc {A} e.

(* ===================================================================== *)
(** * Strings: the [str] methods used by the program *)
(* ===================================================================== *)

Module Str.

(** [c.lower()] on one ASCII character. *)
Definition lower_char (c : ascii) : ascii :=
  let n := nat_of_ascii c in
  if ((65 <=? n) && (n <=? 90))%nat then ascii_of_nat (n + 32) else c.

(** [s.lower()] *)
Fixpoint lower (s : string) : string :=
  match s with
  | EmptyString => EmptyString
  | String c s' => String (lower_char c) (lower s')
  end.

(** [s.startswith(pre)] *)
Definition startswith (pre s : string) : bool := String.prefix pre s.

(** [s.endswith(suf)]: [suf] is [s] or a suffix of the tail of [s]. *)
Fixpoint endswith (suf s : string) : bool :=
  String.eqb suf s ||
  match s with
  | EmptyString => false
  | String _ s' => endswith suf s'
  end.

(** [s.endswith(tuple)] *)
Definition endswith_any (sufs : list string) (s : string) : bool :=
  existsb (fun suf => endswith suf s) sufs.

(** [sub in s] *)
Fixpoint contains (sub s : string) : bool :=
  String.prefix sub s ||
  match s with
  | EmptyString => false
  | String _ s' => contains sub s'
  end.

Fixpoint rfind_from (c : ascii) (s : string) (i acc : Z) : Z :=
  match s with
  | EmptyString => acc
  | String a s' =>
      rfind_from c s' (i + 1) (if Ascii.eqb a c then i else acc)
  end.

(** [s.rfind(c)] for a one-character [c]: the last index, or [-1]. *)
Definition rfind (c : ascii) (s : string) : Z := rfind_from c s 0 (-1).

(** [s[i:]] for [0 <= i]. *)
Fixpoint drop (n : nat) (s : string) : string :=
  match n, s with
  | O, _ => s
  | S n', String _ s' => drop n' s'
  | S _, EmptyString => EmptyString
  end.

(** [s[:i]] for [0 <= i]. *)
Fixpoint take (n : nat) (s : string) : string :=
  match n, s with
  | S n', String c s' => String c (take n' s')
  | _, _ => EmptyString
  end.

Definition slice_from (i : Z) (s : string) : string := drop (Z.to_nat i) s.
Definition slice_to (i : Z) (s : string) : string := take (Z.to_nat i) s.

(** The characters removed by [str.strip()] (ASCII white space). *)
Definition is_space (c : ascii) : bool :=
  let n := nat_of_ascii c in
  ((9 <=? n) && (n <=? 13) || (28 <=? n) && (n <=? 32))%nat.

Fixpoint lstrip (s : string) : string :=
  match s with
  | String c s' => if is_space c then lstrip s' else s
  | EmptyString => EmptyString
  end.

(** [rstrip] keeps a character when it is not a space or when something
    is kept after it. *)
Fixpoint rstrip (s : string) : string :=
  match s with
  | EmptyString => EmptyString
  | String c s' =>
      match rstrip s' with
      | EmptyString => if is_space c then EmptyString else String c EmptyString
      | r => String c r
      end
  end.

(** [s.strip()] *)
Definition strip (s : string) : string := rstrip (lstrip s).

(** [s.isdigit()] on ASCII: non-empty and only decimal digits. *)
Definition is_digit (c : ascii) : bool :=
  let n := nat_of_ascii c in ((48 <=? n) && (n <=? 57))%nat.

Fixpoint all_digits (s : string) : bool :=
  match s with
  | EmptyString => true
  | String c s' => is_digit c && all_digits s'
  end.

Definition isdigit (s : string) : bool :=
  match s with EmptyString => false | _ => all_digits s end.

Definition digit_val (c : ascii) : Z := Z.of_nat (nat_of_ascii c) - 48.

Fixpoint int_acc (s : string) (acc : Z) : Z :=
  match s with
  | EmptyString => acc
  | String c s' => int_acc s' (10 * acc + digit_val c)
  end.

(** [int(s)] for a string of decimal digits. *)
Definition int (s : string) : Z := int_acc s 0.

(** [str(n)] for an integer. *)
Definition of_int (n : Z) : string := NilEmpty.string_of_int (Z.to_int n).

End Str.

(* ===================================================================== *)
(** * Paths: [os.path] (posixpath) *)
(* ===================================================================== *)

Module Path.

Definition sep : ascii := "/"%char.
Definition extsep : ascii := "."%char.

(** [os.path.join(a, b)]:
<<
    if b.startswith(sep): path = b
    elif not path or path.endswith(sep): path += b
    else: path += sep + b
>> *)
Definition join (a b : string) : string :=
  if Str.startswith "/" b then b
  else if String.eqb a "" || Str.endswith "/" a then a +:+ b
  else a +:+ "/" +:+ b.

(** [os.path.basename(p)]: [i = p.rfind(sep) + 1; return p[i:]] *)
Definition basename (p : string) : string :=
  Str.slice_from (Str.rfind sep p + 1) p.

(** The loop of [genericpath._splitext] that skips leading dots:
<<
    while filenameIndex < dotIndex:
        if p[filenameIndex:filenameIndex+1] != extsep:
            return p[:dotIndex], p[dotIndex:]
        filenameIndex += 1
>>
    [n] is [dotIndex - filenameIndex] and [s] is [p[filenameIndex:]];
    the result says whether the loop returned the split. *)
Fixpoint has_non_dot (n : nat) (s : string) : bool :=
  match n, s with
  | S n', String c s' => if Ascii.eqb c extsep then has_non_dot n' s' else true
  | _, _ => false
  end.

(** [os.path.splitext(p)] *)
Definition splitext (p : string) : string * string :=
  let sepIndex := Str.rfind sep p in
  let dotIndex := Str.rfind extsep p in
  if (sepIndex <? dotIndex)
     && has_non_dot (Z.to_nat (dotIndex - (sepIndex + 1)))
                    (Str.slice_from (sepIndex + 1) p)
  then (Str.slice_to dotIndex p, Str.slice_from dotIndex p)
  else (p, ""%string).

End Path.

(* ===================================================================== *)
(** * Time of day and the [%H:%M] parser *)
(* ===================================================================== *)

(** [datetime.time]: naive times compare as the tuples
    [(hour, minute, second, microsecond)]. *)
Record time : Type := mk_time {
  hour : Z;
  minute : Z;
  second : Z;
  microsecond : Z
}.

Definition time_compare (a b : time) : comparison :=
  match hour a ?= hour b with
  | Eq =>
      match minute a ?= minute b with
      | Eq =>
          match second a ?= second b with
          | Eq => microsecond a ?= microsecond b
          | c => c
          end
      | c => c
      end
  | c => c
  end.

(** [a <= b] on [datetime.time] *)
Definition time_leb (a b : time) : bool :=
  match time_compare a b with Gt => false | _ => true end.

Definition time_le (a b : time) : Prop := time_leb a b = true.

(** Microseconds since midnight. *)
Definition time_us (t : time) : Z :=
  ((hour t * 60 + minute t) * 60 + second t) * 1000000 + microsecond t.

Definition time_valid (t : time) : Prop :=
  0 <= hour t < 24 /\ 0 <= minute t < 60 /\ 0 <= second t < 60 /\
  0 <= microsecond t < 1000000.

Module Strptime.

Definition digit (c : ascii) : option Z :=
  if Str.is_digit c then Some (Str.digit_val c) else None.

(** The directive [%H] is the regular expression
    [2[0-3]|[0-1]\d|\d]. [match_H s] lists the ways it matches at the
    start of [s], in the order in which the alternatives are tried, each
    with the value read and the rest of the input. *)
Definition match_H (s : string) : list (Z * string) :=
  let two :=
    match s with
    | String a (String b r) =>
        match digit a, digit b with
        | Some x, Some y =>
            if (x =? 2) && (y <=? 3) then [(10 * x + y, r)]
            else if x <=? 1 then [(10 * x + y, r)]
            else []
        | _, _ => []
        end
    | _ => []
    end in
  let one :=
    match s with
    | String a r =>
        match digit a with
        | Some x => [(x, r)]
        | None => []
        end
    | _ => []
    end in
  two ++ one.

(** The directive [%M] is [[0-5]\d|\d]; it ends the pattern, so the
    first alternative that matches is the one taken. *)
Definition match_M (s : string) : option (Z * string) :=
  match s with
  | String a r =>
      match digit a with
      | Some x =>
          match r with
          | String b r' =>
              match digit b with
              | Some y => if x <=? 5 then Some (10 * x + y, r') else Some (x, r)
              | None => Some (x, r)
              end
          | EmptyString => Some (x, r)
          end
      | None => None
      end
  | EmptyString => None
  end.

(** After [%H], the literal [:] and then [%M]. *)
Definition after_H (c : Z * string) : option (Z * Z * string) :=
  match snd c with
  | String ":" r =>
      match match_M r with
      | Some (m, r') => Some (fst c, m, r')
      | None => None
      end
  | _ => None
  end.

Fixpoint first_match (cs : list (Z * string)) : option (Z * Z * string) :=
  match cs with
  | [] => None
  | c :: cs' =>
      match after_H c with
      | Some r => Some r
      | None => first_match cs'
      end
  end.

(** [datetime.strptime(s, "%H:%M").time()]: [ValueError] when the
    pattern does not match at the start of [s] or when unconverted data
    remains after the match. *)
Definition strptime_HM (s : string) : res time :=
  match first_match (match_H s) with
  | None => Exc ValueError
  | Some (h, m, EmptyString) => Val (mk_time h m 0 0)
  | Some (_, _, String _ _) => Exc ValueError
  end.

End Strptime.

(* ===================================================================== *)
(** * The time-window gate *)
(* ===================================================================== *)

(** The configuration snapshot: the attributes that
    [VideoConverterApp.__init__] and [update_settings] read from the
    settings dictionary. [video_codec] is [None] when the stored value is
    JSON [null]. *)
Record Settings : Type := mk_settings {
  source_folder : string;
  destination_folder : string;
  backup_folder : string;
  auto_run : bool;
  delete_after_conversion : bool;
  retention_time : Z;
  use_backup : bool;
  output_format : string;
  video_codec : option string;
  audio_codec : string;
  copy_only : bool;
  locked : bool;
  start_time : string;
  end_time : string;
  no_time_restrictions : bool
}.

(** [VideoConverterApp.is_within_allowed_hours]; [current_time] is the
    reading [datetime.now().time()].
<<
    if self.no_time_restrictions:
        return True
    current_time = datetime.now().time()
    start_time = datetime.strptime(start_time_str, "%H:%M").time()
    end_time = datetime.strptime(end_time_str, "%H:%M").time()
    if start_time <= end_time:
        return start_time <= current_time <= end_time
    else:
        return current_time >= start_time or current_time <= end_time
>> *)
Definition is_within_allowed_hours (s : Settings) (current_time : time)
  : res bool :=
  if no_time_restrictions s then Val true
  else
    match Strptime.strptime_HM (start_time s) with
    | Exc e => Exc e
    | Val start =>
        match Strptime.strptime_HM (end_time s) with
        | Exc e => Exc e
        | Val end_ =>
            if time_leb start end_
            then Val (time_leb start current_time && time_leb current_time end_)
            else Val (time_leb start current_time || time_leb current_time end_)
        end
    end.

(* ===================================================================== *)
(** * The mutable world: file system, log, timers, calls to the OS *)
(* ===================================================================== *)

(** File contents. *)
Definition data : Type := list Byte.byte.

(** An entry of the file system: a regular file with its bytes, or a
    directory. *)
Inductive node : Type :=
  | File (d : data)
  | Dir.

(** Levels of the rotating log file ([logger.info], [logger.warning],
    [logger.error]). *)
Inductive level : Type := INFO | WARNING | ERROR.

(** The log lines of the modelled code, one constructor per format
    string. [log_message] writes at level [INFO] and also hands the line
    to the GUI emitter. *)
Inductive msg : Type :=
  | MResourceMissing (relative_path full_path : string)
      (* "Resource file '{relative_path}' not found at path '{full_path}'." *)
  | MEncoderDetectError (stderr : string)
      (* "Error detecting supported encoders: {e.stderr}" *)
  | MSettingsCorrupted
      (* "Settings file is corrupted or invalid: {e}. Loading default settings." *)
  | MSettingsLoadError
      (* "Error loading settings: {e}. Loading default settings." *)
  | MOutsideHours (start_time end_time : string)
      (* "Current time is outside the allowed conversion times ({start} to {end})." *)
  | MOutputExists (destination_file : string)
      (* "Output file already exists: {destination_file}" *)
  | MCopying (file_name : string)
      (* "Copying: {file_name}" *)
  | MCopied (file_name : string)
      (* "Successfully copied: {file_name}" *)
  | MMovedToBackup (file_name : string)
      (* "Moved {file_name} to backup folder." *)
  | MMoveError (file_name : string)
      (* "Error moving {file_name} to backup folder: {e}" *)
  | MScheduledDeletion (file_name : string) (deletion_time : Z)
      (* "Scheduled deletion for {file_name} at {deletion_time}" *)
  | MCopyError (file_path : string)
      (* "Error copying {file_path}: {e}" *)
  | MNoCorruption (file_name : string)
      (* "No corruption detected in {file_name}. Skipping preprocessing." *)
  | MCorruption (file_name : string)
      (* "Corruption detected in {file_name}. Preprocessing required." *)
  | MPreprocessing (file_name : string)
      (* "Preprocessing: {file_name} to fix potential corruption" *)
  | MPreprocessError (file_path stderr : string)
      (* "Error preprocessing {file_path}: {e.stderr}" *)
  | MNoAudio (file_name : string)
      (* "No audio stream found in {file_name}. Cannot convert to mp3." *)
  | MConverting (file_name : string)
      (* "Converting: {file_name}" *)
  | MStopped (file_name : string)
      (* "Conversion of {file_name} stopped." *)
  | MOutputLine (line : string)
      (* line.strip() *)
  | MConverted (file_name : string)
      (* "Successfully converted: {file_name}" *)
  | MExitCode (file_name : string) (return_code : Z)
      (* "Error converting {file_name}: ffmpeg exited with code {return_code}" *)
  | MFfmpegNotFound
      (* "ffmpeg not found." *)
  | MConvertError (file_name : string) (e : exn)
      (* "Error converting {file_name}: {e}" *)
  | MDeleted (file_path : string)
      (* "Deleted original file: {file_path}" *)
  | MDeleteError (file_path : string)
      (* "Error deleting file {file_path}: {e}" *)
  | MFolderMissing
      (* "Error: Source or destination folder does not exist." *)
  | MScanning
      (* "Scanning source folder..." *)
  | MNoNewFiles
      (* "No new files found." *)
  | MStoppedBeforeAll
      (* "Process stopped before completing all files." *)
  | MAudioOnly
      (* "Building command for audio-only conversion to mp3." *)
  | MUsingGPU (video_codec : option string)
      (* "Using GPU encoder: {video_codec}" *)
  | MUsingCPU
      (* "Using CPU encoder." *).

(** An argument vector. An element is [None] where the program puts
    Python's [None] in the list (an unset [video_codec]). *)
Definition argv : Type := list (option string).

(** The calls that reach the operating system, in the order they are
    made. *)
Inductive call : Type :=
  | Spawn (command : argv)                     (* subprocess.run / Popen *)
  | Kill (command : argv)                      (* process.kill() *)
  | Copy2 (src dst : string)                   (* shutil.copy2 *)
  | Rename (src dst : string)                  (* os.rename *)
  | Remove (path : string)                     (* os.remove *)
  | TimerStart (interval : Z) (path : string)  (* threading.Timer(..).start() *)
  | MkTemp (dir : string)                      (* tempfile.TemporaryDirectory() *)
  | RmTree (dir : string).                     (* its cleanup *)

(** A started [threading.Timer(interval, self.delete_file, args=(path,))]:
    it calls [delete_file path] at [started + interval] (seconds). *)
Record timer : Type := mk_timer {
  started : Z;
  interval : Z;
  target : string
}.

Definition fire_time (t : timer) : Z := started t + interval t.

Record World : Type := mk_world {
  fs : gmap string node;
  log : list (level * msg);
  timers : list timer;
  trace : list call;
  active_conversion_count : Z;
  logged_outside_time_message : bool;
  last_scan_message_logged : bool;
  last_no_files_message_logged : bool
}.

Definition with_fs (f : gmap string node) (w : World) : World :=
  mk_world f (log w) (timers w) (trace w) (active_conversion_count w)
    (logged_outside_time_message w) (last_scan_message_logged w)
    (last_no_files_message_logged w).

Definition with_log (l : list (level * msg)) (w : World) : World :=
  mk_world (fs w) l (timers w) (trace w) (active_conversion_count w)
    (logged_outside_time_message w) (last_scan_message_logged w)
    (last_no_files_message_logged w).

Definition with_timers (t : list timer) (w : World) : World :=
  mk_world (fs w) (log w) t (trace w) (active_conversion_count w)
    (logged_outside_time_message w) (last_scan_message_logged w)
    (last_no_files_message_logged w).

Definition with_trace (t : list call) (w : World) : World :=
  mk_world (fs w) (log w) (timers w) t (active_conversion_count w)
    (logged_outside_time_message w) (last_scan_message_logged w)
    (last_no_files_message_logged w).

Definition with_count (n : Z) (w : World) : World :=
  mk_world (fs w) (log w) (timers w) (trace w) n
    (logged_outside_time_message w) (last_scan_message_logged w)
    (last_no_files_message_logged w).

Definition with_logged_outside (b : bool) (w : World) : World :=
  mk_world (fs w) (log w) (timers w) (trace w) (active_conversion_count w)
    b (last_scan_message_logged w) (last_no_files_message_logged w).

Definition with_last_scan (b : bool) (w : World) : World :=
  mk_world (fs w) (log w) (timers w) (trace w) (active_conversion_count w)
    (logged_outside_time_message w) b (last_no_files_message_logged w).

Definition with_last_no_files (b : bool) (w : World) : World :=
  mk_world (fs w) (log w) (timers w) (trace w) (active_conversion_count w)
    (logged_outside_time_message w) (last_scan_message_logged w) b.

(** A world with the given files and nothing else. *)
Definition initial_world (f : gmap string node) : World :=
  mk_world f [] [] [] 0 false false false.

(* ===================================================================== *)
(** * The monad of effectful code *)
(* ===================================================================== *)

(** State passing with exceptions: the state survives a raise, as the
    effects of Python code do. *)
Definition M (A : Type) : Type := World -> res A * World.

Definition ret {A} (a : A) : M A := fun w => (Val a, w).

Definition raise {A} (e : exn) : M A := fun w => (Exc e, w).

Definition bind {A B} (m : M A) (k : A -> M B) : M B :=
  fun w =>
    match m w with
    | (Val a, w') => k a w'
    | (Exc e, w') => (Exc e, w')
    end.

(** [try: m except <handles>: h e]: an exception that no [except] clause
    matches goes on. *)
Definition try_except {A} (m : M A) (handles : exn -> bool) (h : exn -> M A)
  : M A :=
  fun w =>
    match m w with
    | (Val a, w') => (Val a, w')
    | (Exc e, w') => if handles e then h e w' else (Exc e, w')
    end.

(** [try: m finally: f] (and the exit of a [with] block): [f] runs on
    every way out of [m]. *)
Definition finally {A} (m : M A) (f : M unit) : M A :=
  fun w =>
    match m w with
    | (r, w') =>
        match f w' with
        | (Val _, w'') => (r, w'')
        | (Exc e, w'') => (Exc e, w'')
        end
    end.

Definition get_world : M World := fun w => (Val w, w).
Definition modify (f : World -> World) : M unit := fun w => (Val tt, f w).

Definition lift {A} (r : res A) : M A := fun w => (r, w).

Declare Scope M_scope.
Delimit Scope M_scope with M.
Notation "x <- m ;; k" := (bind m (fun x => k))
  (at level 100, m at next level, right associativity) : M_scope.
Notation "m ;; k" := (bind m (fun _ => k))
  (at level 100, right associativity) : M_scope.
Local Open Scope M_scope.

(** [logger.info] / [logger.warning] / [logger.error] *)
Definition logger (l : level) (m : msg) : M unit :=
  modify (fun w => with_log (log w ++ [(l, m)]) w).

(** [log_message(message, emitter)] *)
Definition log_message (m : msg) : M unit := logger INFO m.

Definition record_call (c : call) : M unit :=
  modify (fun w => with_trace (trace w ++ [c]) w).

(** [os.path.exists(path)] *)
Definition path_exists (path : string) : M bool :=
  fun w => (Val (bool_decide (is_Some (fs w !! path))), w).

(* ===================================================================== *)
(** * The environment of one run *)
(* ===================================================================== *)

(** What [subprocess.run] meets: the executable is missing
    ([FileNotFoundError]), it cannot be executed (another [OSError]), or
    the child runs and exits. *)
Inductive proc_result : Type :=
  | NotFound
  | NotExecutable
  | Exited (returncode : Z) (stdout stderr : string).

(** What [subprocess.Popen] followed by reading [process.stdout] line by
    line and [process.wait()] meets. *)
Inductive popen_result : Type :=
  | PNotFound
  | PNotExecutable
  | PStarted (lines : list string) (returncode : Z).

(** Everything that the code reads from outside during one call of a
    modelled function. The fields named [.._written] give the bytes that
    the child process leaves in its output file ([None]: it creates no
    file); a child process is taken to write nothing else. *)
Record Env : Type := mk_env {
  base_path : string;
      (* sys._MEIPASS, or the directory of the script *)
  encoders_run : proc_result;
      (* ffmpeg -encoders *)
  now_time : time;
      (* datetime.now().time(), read by the gate *)
  now : Z;
      (* datetime.now() in seconds, read when a deletion is scheduled *)
  listdir_result : res (list string);
      (* os.listdir(self.source_folder) *)
  stop_before : option nat;
      (* the first index of the submit loop at which stop_event is set *)
  copy2_fault : option (option data);
      (* shutil.copy2 fails, leaving these bytes (if any) at the target *)
  rename_fault : bool;
      (* os.rename fails *)
  remove_fault : bool;
      (* os.remove fails *)
  temp_dir : string;
      (* the directory made by tempfile.TemporaryDirectory() *)
  probe_run : proc_result;
      (* ffprobe -v error -i file_path *)
  remux_run : proc_result;
      (* ffmpeg -i file_path -c copy temp_fixed_file *)
  remux_written : option data;
  audio_run : proc_result;
      (* ffprobe ... -select_streams a ... *)
  transcode_run : popen_result;
      (* the command of build_ffmpeg_command *)
  transcode_written : option data;
  stop_at : option nat
      (* the first output line at whose reading stop_event is set *)
}.

(* ===================================================================== *)
(** * Operating-system calls *)
(* ===================================================================== *)

Definition write_file (path : string) (d : data) : M unit :=
  modify (fun w => with_fs (<[path := File d]> (fs w)) w).

Definition write_output (path : string) (written : option data) : M unit :=
  match written with
  | Some d => write_file path d
  | None => ret tt
  end.

(** The start of a child process. A [None] in the argument vector makes
    [Popen] raise [TypeError] before anything is started. *)
Definition launch (command : argv) (found executable : bool) : M unit :=
  if existsb (fun a => bool_decide (a = None)) command then raise TypeError
  else
    record_call (Spawn command);;
    if negb found then raise FileNotFoundError
    else if negb executable then raise OSError
    else ret tt.

(** [subprocess.run(command, stdout=PIPE, stderr=PIPE, ...)]; the child
    leaves [written] at [output]. The result is
    [(returncode, stdout, stderr)]. *)
Definition run (command : argv) (r : proc_result)
    (output : string) (written : option data) : M (Z * string * string) :=
  match r with
  | NotFound => launch command false true;; ret (0, ""%string, ""%string)
  | NotExecutable => launch command true false;; ret (0, ""%string, ""%string)
  | Exited rc out err =>
      launch command true true;;
      write_output output written;;
      ret (rc, out, err)
  end.

(** [subprocess.run(..., check=True)] *)
Definition run_checked (command : argv) (r : proc_result)
    (output : string) (written : option data) : M (Z * string * string) :=
  result <- run command r output written;;
  let '(rc, _, err) := result in
  if rc =? 0 then ret result else raise (CalledProcessError rc err).

(** The path that a directory prefixes. *)
Definition dir_prefix (dir : string) : string :=
  if Str.endswith "/" dir then dir else dir +:+ "/".

(** [path] lies below the directory [dir]. *)
Definition under (dir path : string) : bool :=
  Str.startswith (dir_prefix dir) path.

(** [shutil.copy2(src, dst)]: into [dst], or into the directory [dst]
    under the base name of [src]. *)
Definition copy2 (env : Env) (src dst : string) : M unit :=
  record_call (Copy2 src dst);;
  w <- get_world;;
  let target :=
    match fs w !! dst with
    | Some Dir => Path.join dst (Path.basename src)
    | _ => dst
    end in
  match fs w !! src with
  | None => raise FileNotFoundError
  | Some Dir => raise OSError
  | Some (File d) =>
      match copy2_fault env with
      | None => write_file target d
      | Some leftover => write_output target leftover;; raise OSError
      end
  end.

(** The entries of a directory tree moved from [src] to [dst]. *)
Definition move_tree (src dst : string) (f : gmap string node)
  : gmap string node :=
  let inside (p : string) := bool_decide (p = src) || under src p in
  let moved :=
    (fun kv : string * node =>
       (dst +:+ Str.drop (String.length src) (fst kv), snd kv))
      <$> filter (fun kv => inside (fst kv) = true) (map_to_list f) in
  list_to_map moved ∪ filter (fun kv : string * node => inside (fst kv) = false) f.

(** [os.rename(src, dst)] *)
Definition rename (env : Env) (src dst : string) : M unit :=
  record_call (Rename src dst);;
  w <- get_world;;
  match fs w !! src with
  | None => raise FileNotFoundError
  | Some (File d) =>
      match fs w !! dst with
      | Some Dir => raise OSError
      | _ =>
          if rename_fault env then raise OSError
          else modify (fun w => with_fs (<[dst := File d]> (delete src (fs w))) w)
      end
  | Some Dir =>
      match fs w !! dst with
      | Some (File _) => raise OSError
      | _ =>
          if rename_fault env then raise OSError
          else modify (fun w => with_fs (move_tree src dst (fs w)) w)
      end
  end.

(** [os.remove(path)] *)
Definition remove (env : Env) (path : string) : M unit :=
  record_call (Remove path);;
  w <- get_world;;
  match fs w !! path with
  | None => raise FileNotFoundError
  | Some Dir => raise OSError
  | Some (File _) =>
      if remove_fault env then raise OSError
      else modify (fun w => with_fs (delete path (fs w)) w)
  end.

(** [tempfile.TemporaryDirectory().__enter__()] *)
Definition mkdtemp (env : Env) : M string :=
  record_call (MkTemp (temp_dir env));;
  modify (fun w => with_fs (<[temp_dir env := Dir]> (fs w)) w);;
  ret (temp_dir env).

(** The cleanup of a [TemporaryDirectory]: the directory goes with all
    that lies below it. *)
Definition rmtree (dir : string) : M unit :=
  record_call (RmTree dir);;
  modify (fun w =>
    with_fs (filter (fun kv : string * node =>
                       fst kv <> dir /\ under dir (fst kv) = false) (fs w)) w).

(** [with tempfile.TemporaryDirectory() as temp_dir: body] *)
Definition with_temp_dir {A} (env : Env) (body : string -> M A) : M A :=
  d <- mkdtemp env;;
  finally (body d) (rmtree d).

(** [threading.Timer(interval, self.delete_file, args=(path,)).start()] *)
Definition start_timer (env : Env) (secs : Z) (path : string) : M unit :=
  record_call (TimerStart secs path);;
  modify (fun w => with_timers (timers w ++ [mk_timer (now env) secs path]) w).

(** [resource_path(relative_path)] *)
Definition resource_path (env : Env) (relative_path : string) : M string :=
  let full_path := Path.join (base_path env) relative_path in
  found <- path_exists full_path;;
  (if found then ret tt
   else logger WARNING (MResourceMissing relative_path full_path));;
  ret full_path.

(* ===================================================================== *)
(** * Encoder capability probe and command builder *)
(* ===================================================================== *)

(** [GPU_ENCODERS]: vendor to codec family to encoder name. *)
Abbreviation encoder_map := (gmap string (gmap string string)).

Definition nvidia_encoders : gmap string string :=
  {[ "h264" := "h264_nvenc"; "hevc" := "hevc_nvenc" ]}.
Definition intel_encoders : gmap string string :=
  {[ "h264" := "h264_qsv"; "hevc" := "hevc_qsv" ]}.
Definition amd_encoders : gmap string string :=
  {[ "h264" := "h264_amf"; "hevc" := "hevc_amf" ]}.

(** The body of the [try] of [get_supported_encoders], after the child
    has exited with status 0. *)
Definition detect_encoders (stdout : string) : encoder_map :=
  let encoders := Str.lower stdout in
  let supported : encoder_map := ∅ in
  let supported :=
    if Str.contains "h264_nvenc" encoders || Str.contains "hevc_nvenc" encoders
    then <["nvidia" := nvidia_encoders]> supported else supported in
  let supported :=
    if Str.contains "h264_qsv" encoders || Str.contains "hevc_qsv" encoders
    then <["intel" := intel_encoders]> supported else supported in
  let supported :=
    if Str.contains "h264_amf" encoders || Str.contains "hevc_amf" encoders
    then <["amd" := amd_encoders]> supported else supported in
  supported.

(** [get_supported_encoders()]
<<
    try:
        result = subprocess.run([resource_path('ffmpeg.exe'), '-encoders'],
                                ..., check=True, ...)
        encoders = result.stdout.lower()
        ...
        return supported
    except subprocess.CalledProcessError as e:
        logger.error(f"Error detecting supported encoders: {e.stderr}")
        return {}
>> *)
Definition get_supported_encoders (env : Env) : M encoder_map :=
  try_except
    (ffmpeg <- resource_path env "ffmpeg.exe";;
     result <- run_checked [Some ffmpeg; Some "-encoders"%string]
                 (encoders_run env) "" None;;
     ret (detect_encoders (snd (fst result))))
    is_CalledProcessError
    (fun e =>
       logger ERROR
         (MEncoderDetectError
            match e with CalledProcessError _ err => err | _ => ""%string end);;
       ret ∅).

(** [VideoConverterApp.get_gpu_encoder] *)
Definition get_gpu_encoder (GPU_ENCODERS : encoder_map)
  : option (gmap string string) :=
  match GPU_ENCODERS !! "nvidia" with
  | Some e => Some e
  | None =>
      match GPU_ENCODERS !! "intel" with
      | Some e => Some e
      | None =>
          match GPU_ENCODERS !! "amd" with
          | Some e => Some e
          | None => None
          end
      end
  end.

(** The truth value of [gpu_encoder]: not [None] and not the empty
    dictionary. *)
Definition truthy (gpu_encoder : option (gmap string string)) : bool :=
  match gpu_encoder with
  | Some e => negb (bool_decide (e = ∅))
  | None => false
  end.

(** [self.audio_codec or 'libmp3lame'] *)
Definition audio_or_default (s : Settings) : string :=
  if String.eqb (audio_codec s) "" then "libmp3lame"%string else audio_codec s.

(** [VideoConverterApp.build_ffmpeg_command] *)
Definition build_ffmpeg_command (s : Settings) (GPU_ENCODERS : encoder_map)
    (env : Env) (input_file output_file : string) : M argv :=
  let gpu_encoder := get_gpu_encoder GPU_ENCODERS in
  if String.eqb (output_format s) "mp3" then
    ffmpeg <- resource_path env "ffmpeg.exe";;
    let command :=
      [Some ffmpeg; Some "-y"; Some "-i"; Some input_file;
       Some "-vn";
       Some "-acodec"; Some (audio_or_default s);
       Some output_file]%string in
    log_message MAudioOnly;;
    ret command
  else if truthy gpu_encoder then
    let video_codec :=
      match gpu_encoder with
      | Some e =>
          match e !! "h264" with
          | Some v => Some v
          | None => video_codec s
          end
      | None => video_codec s
      end in
    ffmpeg <- resource_path env "ffmpeg.exe";;
    let command :=
      [Some ffmpeg; Some "-y"; Some "-i"; Some input_file;
       Some "-vcodec"; video_codec;
       Some "-acodec"; Some (audio_codec s);
       Some output_file]%string in
    log_message (MUsingGPU video_codec);;
    ret command
  else
    ffmpeg <- resource_path env "ffmpeg.exe";;
    let command :=
      [Some ffmpeg; Some "-y"; Some "-i"; Some input_file;
       Some "-vcodec"; video_codec s;
       Some "-acodec"; Some (audio_codec s);
       Some output_file]%string in
    log_message MUsingCPU;;
    ret command.

(* ===================================================================== *)
(** * Disposal *)
(* ===================================================================== *)

(** [VideoConverterApp.delete_file]
<<
    try:
        if os.path.exists(file_path):
            os.remove(file_path)
            log_message(f"Deleted original file: {file_path}", ...)
    except Exception as e:
        log_message(f"Error deleting file {file_path}: {e}", ...)
>> *)
Definition delete_file (env : Env) (file_path : string) : M unit :=
  try_except
    (found <- path_exists file_path;;
     if found then
       remove env file_path;;
       log_message (MDeleted file_path)
     else ret tt)
    (fun _ => true)
    (fun _ => log_message (MDeleteError file_path)).

(** The disposal of the source after a successful copy (lines 1475-1491)
    or a successful conversion (lines 1571-1587); the two blocks are the
    same statements.
<<
    if self.use_backup and self.backup_folder:
        try:
            backup_file_path = os.path.join(self.backup_folder, file_name)
            os.rename(file_path, backup_file_path)
            log_message(f"Moved {file_name} to backup folder.", ...)
        except OSError as e:
            log_message(f"Error moving {file_name} to backup folder: {e}", ...)
    if self.delete_after_conversion and not self.use_backup:
        if self.retention_time > 0:
            deletion_time = datetime.now() + timedelta(days=self.retention_time)
            log_message(f"Scheduled deletion for {file_name} at ...", ...)
            threading.Timer(self.retention_time * 86400, self.delete_file,
                            args=(file_path,)).start()
        else:
            self.delete_file(file_path)
>> *)
Definition dispose (s : Settings) (env : Env) (file_path file_name : string)
  : M unit :=
  (if use_backup s && negb (String.eqb (backup_folder s) "") then
     try_except
       (let backup_file_path := Path.join (backup_folder s) file_name in
        rename env file_path backup_file_path;;
        log_message (MMovedToBackup file_name))
       is_OSError
       (fun _ => log_message (MMoveError file_name))
   else ret tt);;
  if delete_after_conversion s && negb (use_backup s) then
    if 0 <? retention_time s then
      let deletion_time := now env + retention_time s * 86400 in
      log_message (MScheduledDeletion file_name deletion_time);;
      start_timer env (retention_time s * 86400) file_path
    else delete_file env file_path
  else ret tt.

(** What a started timer does when it fires. *)
Definition fire (env : Env) (t : timer) : M unit :=
  delete_file env (target t).

(* ===================================================================== *)
(** * The job: [convert_file] *)
(* ===================================================================== *)

(** [convert_file] returns [None] on every path; the outcome names the
    statement at which the call ends (line numbers of [VC135.py]). *)
Inductive outcome : Type :=
  | SkippedOutsideWindow            (* return, line 1452 *)
  | SkippedExisting                 (* return, line 1466 *)
  | Copied                          (* line 1494, the copy went through *)
  | CopyFailed                      (* line 1494, after "Error copying" *)
  | PreprocessFailed                (* return, line 1534 *)
  | SkippedNoAudio                  (* return, line 1543 *)
  | Stopped                         (* return, line 1564 *)
  | Success                         (* end of the [if return_code == 0] block *)
  | TranscodeFailed (return_code : Z)   (* return, line 1590 *)
  | ToolNotFound                    (* except FileNotFoundError, line 1593 *)
  | TranscodeError (e : exn).       (* except Exception, line 1595 *)

(** [start_conversion_indicator] and [end_conversion_indicator] (the logo
    they redraw is not part of the model). *)
Definition start_conversion_indicator : M unit :=
  modify (fun w => with_count (active_conversion_count w + 1) w).

Definition end_conversion_indicator : M unit :=
  modify (fun w =>
    if 0 <? active_conversion_count w
    then with_count (active_conversion_count w - 1) w
    else w).

(** The message logged once while the gate is closed (lines 1449-1451 and
    1608-1610). *)
Definition log_outside_hours (s : Settings) : M unit :=
  w <- get_world;;
  if negb (logged_outside_time_message w) then
    log_message (MOutsideHours (start_time s) (end_time s));;
    modify (with_logged_outside true)
  else ret tt.

(** [file_name if self.copy_only else
     os.path.splitext(file_name)[0] + f'.{self.output_format}'] *)
Definition artifact_name (s : Settings) (file_name : string) : string :=
  if copy_only s then file_name
  else fst (Path.splitext file_name) +:+ "." +:+ output_format s.

(** The destination artifact of a source file name. *)
Definition destination_of (s : Settings) (file_name : string) : string :=
  Path.join (destination_folder s) (artifact_name s file_name).

(** [VideoConverterApp.has_audio_stream] *)
Definition has_audio_stream (env : Env) (file_path : string) : M bool :=
  ffprobe <- resource_path env "ffprobe.exe";;
  let command :=
    [Some ffprobe; Some "-v"; Some "error"; Some "-select_streams"; Some "a";
     Some "-show_entries"; Some "stream=codec_type"; Some "-of";
     Some "default=nw=1"; Some file_path]%string in
  result <- run command (audio_run env) "" None;;
  ret (Str.contains "codec_type=audio" (snd (fst result))).

(** The copy-only branch, lines 1468-1494. *)
Definition copy_branch (s : Settings) (env : Env)
    (file_path file_name destination_file : string) : M outcome :=
  try_except
    (log_message (MCopying file_name);;
     copy2 env file_path destination_file;;
     log_message (MCopied file_name);;
     dispose s env file_path file_name;;
     ret Copied)
    (fun _ => true)
    (fun _ => log_message (MCopyError file_path);; ret CopyFailed).

(** The integrity probe, lines 1502-1517: [true] when preprocessing is
    needed. *)
Definition probe (env : Env) (file_path file_name : string) : M bool :=
  try_except
    (ffprobe <- resource_path env "ffprobe.exe";;
     let probe_command :=
       [Some ffprobe; Some "-v"; Some "error"; Some "-i"; Some file_path]%string in
     run_checked probe_command (probe_run env) "" None;;
     log_message (MNoCorruption file_name);;
     ret false)
    is_CalledProcessError
    (fun _ => log_message (MCorruption file_name);; ret true).

(** The repair, lines 1520-1534: [true] when the remux went through. *)
Definition preprocess (env : Env) (file_path file_name temp_fixed_file : string)
  : M bool :=
  ffmpeg <- resource_path env "ffmpeg.exe";;
  let preprocess_command :=
    [Some ffmpeg; Some "-i"; Some file_path; Some "-c"; Some "copy";
     Some temp_fixed_file]%string in
  try_except
    (log_message (MPreprocessing file_name);;
     run_checked preprocess_command (remux_run env)
       temp_fixed_file (remux_written env);;
     ret true)
    is_CalledProcessError
    (fun e =>
       log_message
         (MPreprocessError file_path
            match e with CalledProcessError _ err => err | _ => ""%string end);;
       ret false).

(** The loop over [process.stdout], lines 1560-1565: [true] when the stop
    event ended it. [i] counts the lines read so far. *)
Fixpoint stream (env : Env) (command : argv) (file_name : string)
    (lines : list string) (i : nat) : M bool :=
  match lines with
  | [] => ret false
  | line :: rest =>
      if bool_decide (stop_at env = Some i) then
        record_call (Kill command);;
        log_message (MStopped file_name);;
        ret true
      else
        log_message (MOutputLine (Str.strip line));;
        stream env command file_name rest (S i)
  end.

(** The [try] block of lines 1550-1590: the child process, its output
    and its exit status, and the disposal on status 0. *)
Definition transcode (s : Settings) (env : Env) (command : argv)
    (file_path file_name output_file_path : string) : M outcome :=
  log_message (MConverting file_name);;
  match transcode_run env with
  | PNotFound => launch command false true;; ret Success
  | PNotExecutable => launch command true false;; ret Success
  | PStarted lines return_code =>
      launch command true true;;
      write_output output_file_path (transcode_written env);;
      stopped <- stream env command file_name lines 0;;
      if stopped then ret Stopped
      else if return_code =? 0 then
        log_message (MConverted file_name);;
        dispose s env file_path file_name;;
        ret Success
      else
        log_message (MExitCode file_name return_code);;
        ret (TranscodeFailed return_code)
  end.

(** The two [except] clauses of lines 1592-1595. *)
Definition transcode_failed (file_name : string) (e : exn) : M outcome :=
  if is_FileNotFoundError e then
    log_message MFfmpegNotFound;; ret ToolNotFound
  else
    log_message (MConvertError file_name e);; ret (TranscodeError e).

(** Lines 1539-1595: the audio guard, the command, the child process and
    the disposal. *)
Definition encode (s : Settings) (GPU_ENCODERS : encoder_map) (env : Env)
    (file_path file_name destination_file input_file : string) : M outcome :=
  audio_ok <-
    (if String.eqb (output_format s) "mp3"
     then has_audio_stream env input_file
     else ret true);;
  if negb audio_ok then
    log_message (MNoAudio file_name);;
    ret SkippedNoAudio
  else
    let output_file_path := destination_file in
    command <- build_ffmpeg_command s GPU_ENCODERS env input_file output_file_path;;
    try_except
      (transcode s env command file_path file_name output_file_path)
      (fun _ => true)
      (transcode_failed file_name).

(** Lines 1497-1595: the body of the [with] block. *)
Definition convert_in (s : Settings) (GPU_ENCODERS : encoder_map) (env : Env)
    (file_path file_name destination_file temp_dir : string) : M outcome :=
  let temp_fixed_file := Path.join temp_dir ("fixed_" +:+ file_name) in
  preprocess_needed <- probe env file_path file_name;;
  if preprocess_needed then
    repaired <- preprocess env file_path file_name temp_fixed_file;;
    if repaired then
      encode s GPU_ENCODERS env file_path file_name destination_file temp_fixed_file
    else ret PreprocessFailed
  else
    encode s GPU_ENCODERS env file_path file_name destination_file file_path.

(** Lines 1468-1595: the work of a job whose destination artifact does
    not exist yet. *)
Definition convert_work (s : Settings) (GPU_ENCODERS : encoder_map)
    (env : Env) (file_path : string) : M outcome :=
  let file_name := Path.basename file_path in
  let destination_file := destination_of s file_name in
  if copy_only s then
    copy_branch s env file_path file_name destination_file
  else
    with_temp_dir env
      (convert_in s GPU_ENCODERS env file_path file_name destination_file).

(** Lines 1457-1595: the body of the outer [try]. *)
Definition convert_body (s : Settings) (GPU_ENCODERS : encoder_map)
    (env : Env) (file_path : string) : M outcome :=
  let file_name := Path.basename file_path in
  let destination_file := destination_of s file_name in
  found <- path_exists destination_file;;
  if found then
    log_message (MOutputExists destination_file);;
    ret SkippedExisting
  else convert_work s GPU_ENCODERS env file_path.

(** Lines 1454-1455, on entering the job. *)
Definition convert_enter : M unit :=
  modify (with_logged_outside false);;
  start_conversion_indicator.

(** [VideoConverterApp.convert_file] *)
Definition convert_file (s : Settings) (GPU_ENCODERS : encoder_map)
    (env : Env) (file_path : string) : M outcome :=
  allowed <- lift (is_within_allowed_hours s (now_time env));;
  if negb allowed then
    log_outside_hours s;;
    ret SkippedOutsideWindow
  else
    convert_enter;;
    finally (convert_body s GPU_ENCODERS env file_path)
            end_conversion_indicator.

(* ===================================================================== *)
(** * The scan: [convert_videos] *)
(* ===================================================================== *)

Definition supported_formats : list string :=
  [".mp4"; ".avi"; ".wmv"; ".mkv"; ".flv"; ".webm"; ".mov"; ".mpeg";
   ".mpg"; ".m4v"; ".3gp"; ".ts"; ".vob"; ".rm"; ".rmvb"; ".asf";
   ".m2ts"; ".mts"; ".ogv"; ".divx"; ".dv"; ".f4v"; ".mxf"; ".nut";
   ".ogm"; ".qt"; ".tod"; ".vro"]%string.

(** The condition of the list comprehension, lines 1624-1625. *)
Definition eligible (s : Settings) (f : gmap string node) (name : string)
  : bool :=
  Str.endswith_any supported_formats (Str.lower name)
  && negb (bool_decide (is_Some (f !! destination_of s name))).

(** [new_files], lines 1622-1626; [listing] is [os.listdir(source_folder)]. *)
Definition new_files (s : Settings) (f : gmap string node)
    (listing : list string) : list string :=
  map (Path.join (source_folder s)) (List.filter (eligible s f) listing).

(** The submit loop, lines 1638-1642; the result lists the paths handed
    to [self.executor.submit(self.convert_file, file_path)]. *)
Fixpoint submit_all (env : Env) (files : list string) (i : nat)
  : M (list string) :=
  match files with
  | [] => ret []
  | file_path :: rest =>
      if bool_decide (stop_before env = Some i) then
        log_message MStoppedBeforeAll;;
        ret []
      else
        submitted <- submit_all env rest (S i);;
        ret (file_path :: submitted)
  end.

(** [VideoConverterApp.convert_videos]; the result lists the submitted
    jobs. *)
Definition convert_videos (s : Settings) (env : Env) : M (list string) :=
  src_ok <- path_exists (source_folder s);;
  dst_ok <- path_exists (destination_folder s);;
  if negb src_ok || negb dst_ok then
    log_message MFolderMissing;;
    ret []
  else
    allowed <- lift (is_within_allowed_hours s (now_time env));;
    if negb allowed then
      log_outside_hours s;;
      ret []
    else
      modify (with_logged_outside false);;
      listing <- lift (listdir_result env);;
      w <- get_world;;
      let files := new_files s (fs w) listing in
      match files with
      | [] =>
          (if negb (last_scan_message_logged w) then
             log_message MScanning;;
             modify (with_last_scan true)
           else ret tt);;
          w' <- get_world;;
          (if negb (last_no_files_message_logged w') then
             log_message MNoNewFiles;;
             modify (with_last_no_files true)
           else ret tt);;
          ret []
      | _ =>
          modify (with_last_scan false);;
          modify (with_last_no_files false);;
          submit_all env files 0
      end.

(* ===================================================================== *)
(** * Settings: schema validation, loading, the snapshot *)
(* ===================================================================== *)

(** A decoded JSON value, as [json.load] returns it. A number written
    without fraction or exponent decodes to a Python [int] ([JInt]), any
    other number to a [float] ([JFloat], here with its exact rational
    value). *)
#[warnings="-register-all"]
Inductive json : Type :=
  | JNull
  | JBool (b : bool)
  | JInt (n : Z)
  | JFloat (num : Z) (den : positive)
  | JStr (s : string)
  | JArr (items : list json)
  | JObj (fields : list (string * json)).

(** The JSON Schema types used by [validate_settings]. *)
Inductive jtype : Type := TString | TBoolean | TInteger | TNull.

(** [float.is_integer()] *)
Definition float_is_integer (num : Z) (den : positive) : bool :=
  num mod Z.pos den =? 0.

(** An instance has a type of the schema. A [bool] is not an integer; a
    float without fractional part is one. *)
Definition has_type (t : jtype) (v : json) : bool :=
  match t, v with
  | TString, JStr _ => true
  | TBoolean, JBool _ => true
  | TInteger, JInt _ => true
  | TInteger, JFloat num den => float_is_integer num den
  | TNull, JNull => true
  | _, _ => false
  end.

(** The value of a number against ["minimum": 0]. *)
Definition at_least_zero (v : json) : bool :=
  match v with
  | JInt n => 0 <=? n
  | JFloat num _ => 0 <=? num
  | _ => true
  end.

(** The ["properties"] of the schema: for each key the admitted types and
    whether ["minimum": 0] applies. *)
Definition schema_properties : list (string * (list jtype * bool)) :=
  [("source_folder", ([TString], false));
   ("destination_folder", ([TString], false));
   ("backup_folder", ([TString], false));
   ("auto_run", ([TBoolean], false));
   ("delete_after_conversion", ([TBoolean], false));
   ("retention_time", ([TInteger], true));
   ("use_backup", ([TBoolean], false));
   ("output_format", ([TString], false));
   ("video_codec", ([TString; TNull], false));
   ("audio_codec", ([TString], false));
   ("copy_only", ([TBoolean], false));
   ("locked", ([TBoolean], false));
   ("start_time", ([TString], false));
   ("end_time", ([TString], false));
   ("no_time_restrictions", ([TBoolean], false))]%string.

(** The ["required"] list of the schema. *)
Definition schema_required : list string :=
  ["auto_run"; "delete_after_conversion"; "retention_time";
   "use_backup"; "output_format"; "copy_only"; "locked";
   "start_time"; "end_time"; "no_time_restrictions"]%string.

(** A Python [dict] with string keys. *)
Abbreviation dict := (gmap string json).

(** The dictionary that [json.load] builds from the members of an object
    (a later member with the same name wins). *)
Definition dict_of (fields : list (string * json)) : dict :=
  list_to_map (rev fields).

Definition property_ok (d : dict) (p : string * (list jtype * bool)) : bool :=
  match d !! fst p with
  | None => true
  | Some v =>
      existsb (fun t => has_type t v) (fst (snd p))
      && (negb (snd (snd p)) || at_least_zero v)
  end.

(** Whether [validate(instance=settings, schema=schema)] passes. *)
Definition conforms (settings : json) : bool :=
  match settings with
  | JObj fields =>
      let d := dict_of fields in
      forallb (property_ok d) schema_properties
      && forallb (fun k => bool_decide (is_Some (d !! k))) schema_required
  | _ => false
  end.

(** [validate_settings(settings)]: raises [ValidationError] or returns. *)
Definition validate_settings (settings : json) : res unit :=
  if conforms settings then Val tt else Exc ValidationError.

Definition default_settings : dict :=
  list_to_map
    [("source_folder", JStr "");
     ("destination_folder", JStr "");
     ("backup_folder", JStr "");
     ("auto_run", JBool false);
     ("delete_after_conversion", JBool false);
     ("retention_time", JInt 0);
     ("use_backup", JBool false);
     ("output_format", JStr "mp4");
     ("video_codec", JStr "libx264");
     ("audio_codec", JStr "aac");
     ("copy_only", JBool false);
     ("locked", JBool false);
     ("start_time", JStr "00:00");
     ("end_time", JStr "23:59");
     ("no_time_restrictions", JBool true)]%string.

(** [load_settings()]; [stored] is what reading the settings file gives:
    [None] when the file does not exist, otherwise the result of
    [open] and [json.load].
<<
    if os.path.exists(settings_path):
        try:
            with open(settings_path, 'r') as f:
                settings = json.load(f)
            validate_settings(settings)
            return settings
        except (json.JSONDecodeError, ValidationError) as e:
            logger.error(...); return default_settings
        except Exception as e:
            logger.error(...); return default_settings
    else:
        return default_settings
>> *)
Definition load_settings (stored : option (res json)) : M dict :=
  match stored with
  | Some read =>
      try_except
        (settings <- lift read;;
         lift (validate_settings settings);;
         ret match settings with
             | JObj fields => dict_of fields
             | _ => default_settings
             end)
        (fun _ => true)
        (fun e =>
           match e with
           | JSONDecodeError | ValidationError =>
               logger ERROR MSettingsCorrupted;; ret default_settings
           | _ =>
               logger ERROR MSettingsLoadError;; ret default_settings
           end)
  | None => ret default_settings
  end.

(** [self.settings.get(key, default)] read at a type. The result is
    [None] when the stored value is of another type, which validated
    settings never are. *)
Definition get_str (d : dict) (key default : string) : option string :=
  match d !! key with
  | None => Some default
  | Some (JStr v) => Some v
  | Some _ => None
  end.

Definition get_bool (d : dict) (key : string) (default : bool) : option bool :=
  match d !! key with
  | None => Some default
  | Some (JBool v) => Some v
  | Some _ => None
  end.

Definition get_int (d : dict) (key : string) (default : Z) : option Z :=
  match d !! key with
  | None => Some default
  | Some (JInt v) => Some v
  | Some (JFloat num den) =>
      if float_is_integer num den then Some (num / Z.pos den) else None
  | Some _ => None
  end.

Definition get_codec (d : dict) (key default : string)
  : option (option string) :=
  match d !! key with
  | None => Some (Some default)
  | Some (JStr v) => Some (Some v)
  | Some JNull => Some None
  | Some _ => None
  end.

(** The attributes set by [VideoConverterApp.__init__] (lines 848-862) and
    again by [update_settings] (lines 1267-1280). *)
Definition snapshot (d : dict) : option Settings :=
  source_folder ← get_str d "source_folder" "";
  destination_folder ← get_str d "destination_folder" "";
  backup_folder ← get_str d "backup_folder" "";
  auto_run ← get_bool d "auto_run" false;
  delete_after_conversion ← get_bool d "delete_after_conversion" false;
  retention_time ← get_int d "retention_time" 0;
  use_backup ← get_bool d "use_backup" false;
  output_format ← get_str d "output_format" "mp4";
  video_codec ← get_codec d "video_codec" "libx264";
  audio_codec ← get_str d "audio_codec" "aac";
  copy_only ← get_bool d "copy_only" false;
  locked ← get_bool d "locked" false;
  start_time ← get_str d "start_time" "00:00";
  end_time ← get_str d "end_time" "23:59";
  no_time_restrictions ← get_bool d "no_time_restrictions" true;
  Some (mk_settings source_folder destination_folder backup_folder auto_run
          delete_after_conversion retention_time use_backup output_format
          video_codec audio_codec copy_only locked start_time end_time
          no_time_restrictions).

(** ** The deletion tab of the settings dialog *)

(** The widgets of [SettingsDialog.create_deletion_tab] that take part in
    the exclusion of backup and immediate deletion. *)
Record DeletionTab : Type := mk_tab {
  delete_after_checkbox : bool;        (* isChecked() *)
  retention_input : string;            (* text() *)
  use_backup_checked : bool;           (* use_backup_checkbox.isChecked() *)
  use_backup_enabled : bool            (* use_backup_checkbox.isEnabled() *)
}.

(** The state of the tab when the dialog opens on the current settings.
<<
    self.delete_after_checkbox.setChecked(
        self.current_settings.get('delete_after_conversion', False))
    self.retention_input = QLineEdit(
        str(self.current_settings.get('retention_time', 0)))
    self.use_backup_checkbox.setChecked(
        self.current_settings.get('use_backup', False))
    self.use_backup_checkbox.setEnabled(
        not (self.delete_after_checkbox.isChecked()
             and int(self.retention_input.text()) == 0))
>>
    ([int(str(n))] is [n]). *)
Definition create_deletion_tab (st : Settings) : DeletionTab :=
  mk_tab (delete_after_conversion st)
    (Str.of_int (retention_time st))
    (use_backup st)
    (negb (delete_after_conversion st && (retention_time st =? 0))).

(** [int(text) if text.isdigit() else 0] *)
Definition retention_of_text (text : string) : Z :=
  if Str.isdigit text then Str.int text else 0.

(** [SettingsDialog.retention_time_changed(text)]; the dialog's
    [retention_input] already holds [text] when the signal arrives.
<<
    retention_time = int(text) if text.isdigit() else 0
    if self.delete_after_checkbox.isChecked():
        if retention_time == 0:
            if self.use_backup_checkbox.isEnabled():
                self.use_backup_checkbox.setEnabled(False)
                self.use_backup_checkbox.setChecked(False)
                self.backup_usage_changed.emit(False)
        else:
            if not self.use_backup_checkbox.isEnabled():
                self.use_backup_checkbox.setEnabled(True)
    else:
        if not self.use_backup_checkbox.isEnabled():
            self.use_backup_checkbox.setEnabled(True)
>> *)
Definition retention_time_changed (t : DeletionTab) (text : string)
  : DeletionTab :=
  let retention_time := retention_of_text text in
  if delete_after_checkbox t then
    if retention_time =? 0 then
      if use_backup_enabled t
      then mk_tab (delete_after_checkbox t) (retention_input t) false false
      else t
    else
      if negb (use_backup_enabled t)
      then mk_tab (delete_after_checkbox t) (retention_input t)
             (use_backup_checked t) true
      else t
  else
    if negb (use_backup_enabled t)
    then mk_tab (delete_after_checkbox t) (retention_input t)
           (use_backup_checked t) true
    else t.

(** The user edits the retention field: [textChanged] calls
    [retention_time_changed]. *)
Definition edit_retention (t : DeletionTab) (text : string) : DeletionTab :=
  retention_time_changed
    (mk_tab (delete_after_checkbox t) text (use_backup_checked t)
       (use_backup_enabled t))
    text.

(** [SettingsDialog.toggle_retention(state)]: the user has set the
    delete-after checkbox to [checked]; [stateChanged] then calls
    [retention_time_changed] with the current text. *)
Definition toggle_retention (t : DeletionTab) (checked : bool) : DeletionTab :=
  retention_time_changed
    (mk_tab checked (retention_input t) (use_backup_checked t)
       (use_backup_enabled t))
    (retention_input t).

(** The user clicks the backup checkbox, which reacts only while it is
    enabled. *)
Definition click_use_backup (t : DeletionTab) (checked : bool) : DeletionTab :=
  if use_backup_enabled t
  then mk_tab (delete_after_checkbox t) (retention_input t) checked true
  else t.

(** The three values that [SettingsDialog.save_settings] stores for this
    tab, when the retention check (lines 804-807) lets it save. *)
Definition saved_flags (t : DeletionTab) : option (bool * Z * bool) :=
  let retention_time := retention_input t in
  if delete_after_checkbox t
     && negb (Str.isdigit retention_time
              && (0 <=? Str.int retention_time)
              && (Str.int retention_time <=? 30))
  then None
  else Some (delete_after_checkbox t,
             retention_of_text retention_time,
             use_backup_checked t).

(* ===================================================================== *)
(** * The dispatcher and the worker pool *)
(* ===================================================================== *)

(** [ThreadPoolExecutor(max_workers=4)] *)
Definition max_workers : nat := 4.

(** The scan loop of [run_conversion] next to the executor: the world,
    the jobs submitted and not yet taken by a worker (in order), and the
    source paths of the calls of [convert_file] that are past the
    destination check of line 1464 and have not ended. *)
Record Pool : Type := mk_pool {
  world : World;
  queued : list string;
  running : list string
}.

(** Whether a job that starts now gets past lines 1448-1466. *)
Definition admitted (s : Settings) (env : Env) (w : World)
    (file_path : string) : bool :=
  match is_within_allowed_hours s (now_time env) with
  | Val true =>
      negb (bool_decide
              (is_Some (fs w !! destination_of s (Path.basename file_path))))
  | _ => false
  end.

(** One step of the system, for fixed settings and capability cache. The
    environment of a step is arbitrary. The work of a running job takes
    effect when the job ends. *)
Inductive step (s : Settings) (GPU_ENCODERS : encoder_map)
  : Pool -> Pool -> Prop :=
  | step_scan env P submitted w' :
      (* one iteration of [run_conversion]: [self.convert_videos()] *)
      convert_videos s env (world P) = (Val submitted, w') ->
      step s GPU_ENCODERS P (mk_pool w' (queued P ++ submitted) (running P))
  | step_start env P file_path rest w' :
      (* a free worker takes the oldest job, which passes both checks *)
      queued P = file_path :: rest ->
      (length (running P) < max_workers)%nat ->
      admitted s env (world P) file_path = true ->
      convert_enter (world P) = (Val tt, w') ->
      step s GPU_ENCODERS P (mk_pool w' rest (running P ++ [file_path]))
  | step_skip env P file_path rest r w' :
      (* a free worker takes the oldest job, which ends at a check *)
      queued P = file_path :: rest ->
      (length (running P) < max_workers)%nat ->
      admitted s env (world P) file_path = false ->
      convert_file s GPU_ENCODERS env file_path (world P) = (r, w') ->
      step s GPU_ENCODERS P (mk_pool w' rest (running P))
  | step_finish env P before file_path after r w' :
      (* a running job does its work and ends *)
      running P = before ++ file_path :: after ->
      finally (convert_work s GPU_ENCODERS env file_path)
              end_conversion_indicator (world P) = (r, w') ->
      step s GPU_ENCODERS P (mk_pool w' (queued P) (before ++ after)).

(** The states that the system reaches from [P0]. *)
Inductive reachable (s : Settings) (GPU_ENCODERS : encoder_map) (P0 : Pool)
  : Pool -> Prop :=
  | reach_init : reachable s GPU_ENCODERS P0 P0
  | reach_step P P' :
      reachable s GPU_ENCODERS P0 P ->
      step s GPU_ENCODERS P P' ->
      reachable s GPU_ENCODERS P0 P'.

(** The number of running jobs for one source path. *)
Definition in_flight (P : Pool) (file_path : string) : nat :=
  length (List.filter (fun p => bool_decide (p = file_path)) (running P)).

(* ===================================================================== *)
(** * Properties of the time-window gate *)
(* ===================================================================== *)

(** Settings that only fix the time window. *)
Definition window_settings (start_time end_time : string)
    (no_time_restrictions : bool) : Settings :=
  mk_settings "" "" "" false false 0 false "mp4" (Some "libx264"%string) "aac"
    false false start_time end_time no_time_restrictions.

Lemma time_compare_us (a b : time) :
  time_valid a -> time_valid b ->
  time_compare a b = (time_us a ?= time_us b).
Proof.
  intros (Ha1 & Ha2 & Ha3 & Ha4) (Hb1 & Hb2 & Hb3 & Hb4).
  unfold time_compare, time_us.
  destruct (Z.compare_spec (hour a) (hour b)) as [Hh|Hh|Hh].
  - destruct (Z.compare_spec (minute a) (minute b)) as [Hm|Hm|Hm].
    + destruct (Z.compare_spec (second a) (second b)) as [Hs|Hs|Hs].
      * rewrite Hh, Hm, Hs.
        destruct (Z.compare_spec (microsecond a) (microsecond b));
          symmetry; [apply Z.compare_eq_iff | apply Z.compare_lt_iff
                    | apply Z.compare_gt_iff]; lia.
      * symmetry; apply Z.compare_lt_iff; nia.
      * symmetry; apply Z.compare_gt_iff; nia.
    + symmetry; apply Z.compare_lt_iff; nia.
    + symmetry; apply Z.compare_gt_iff; nia.
  - symmetry; apply Z.compare_lt_iff; nia.
  - symmetry; apply Z.compare_gt_iff; nia.
Qed.

(** On valid times the order of [datetime.time] is the order of the
    instants of the day. *)
Lemma time_le_us (a b : time) :
  time_valid a -> time_valid b ->
  time_le a b <-> time_us a <= time_us b.
Proof.
  intros Ha Hb. unfold time_le, time_leb.
  rewrite (time_compare_us a b Ha Hb).
  destruct (Z.compare_spec (time_us a) (time_us b)); split; intros; try lia;
    try reflexivity; discriminate.
Qed.

(** A time that [strptime] returns is a valid hour and minute. *)
Lemma strptime_HM_valid (text : string) (t : time) :
  Strptime.strptime_HM text = Val t -> time_valid t.
Proof.
  unfold Strptime.strptime_HM.
  destruct (Strptime.first_match (Strptime.match_H text))
    as [[[h m] r]|] eqn:Hfm; [|discriminate].
  destruct r; [|discriminate]. intros [= <-].
  assert (Hdigit : forall c x, Strptime.digit c = Some x -> 0 <= x <= 9).
  { intros c x. unfold Strptime.digit, Str.is_digit, Str.digit_val.
    destruct (_ && _)%bool eqn:Hd; [|discriminate]. intros [= <-].
    apply andb_true_iff in Hd as [H1 H2].
    apply Nat.leb_le in H1, H2. lia. }
  assert (HM : forall r0 m0 r1, Strptime.match_M r0 = Some (m0, r1) -> 0 <= m0 < 60).
  { intros r0 m0 r1. unfold Strptime.match_M.
    destruct r0 as [|a r0]; [discriminate|].
    destruct (Strptime.digit a) as [x|] eqn:Hx; [|discriminate].
    apply Hdigit in Hx.
    destruct r0 as [|b r0]; [intros [= <- <-]; lia|].
    destruct (Strptime.digit b) as [y|] eqn:Hy; [|intros [= <- <-]; lia].
    apply Hdigit in Hy.
    destruct (x <=? 5) eqn:Hx5; intros [= <- <-]; [apply Z.leb_le in Hx5|]; lia. }
  assert (HA : forall c h0 m0 r0, Strptime.after_H c = Some (h0, m0, r0) ->
                 h0 = fst c /\ 0 <= m0 < 60).
  { intros [hc rc] h0 m0 r0. unfold Strptime.after_H. simpl.
    destruct rc as [|a rc]; [discriminate|].
    destruct (Ascii.eqb a ":") eqn:Ha;
      [apply Ascii.eqb_eq in Ha; subst a|].
    - destruct (Strptime.match_M rc) as [[m1 r1]|] eqn:HmM; [|discriminate].
      intros [= <- <- <-]. split; [reflexivity|]. eapply HM; eauto.
    - destruct a as [[] [] [] [] [] [] [] []]; try discriminate. }
  assert (HH : forall c, In c (Strptime.match_H text) -> 0 <= fst c < 24).
  { intros c. unfold Strptime.match_H. rewrite in_app_iff.
    intros [Hin|Hin].
    - destruct text as [|a [|b r]]; try contradiction.
      destruct (Strptime.digit a) as [x|] eqn:Hx; [|contradiction].
      destruct (Strptime.digit b) as [y|] eqn:Hy; [|contradiction].
      apply Hdigit in Hx. apply Hdigit in Hy.
      destruct ((x =? 2) && (y <=? 3))%bool eqn:H2.
      + apply andb_true_iff in H2 as [H2a H2b].
        apply Z.eqb_eq in H2a. apply Z.leb_le in H2b.
        destruct Hin as [<-|[]]. simpl. lia.
      + destruct (x <=? 1) eqn:H1; [|contradiction].
        apply Z.leb_le in H1. destruct Hin as [<-|[]]. simpl. lia.
    - destruct text as [|a r]; [contradiction|].
      destruct (Strptime.digit a) as [x|] eqn:Hx; [|contradiction].
      apply Hdigit in Hx. destruct Hin as [<-|[]]. simpl. lia. }
  revert Hfm HH. generalize (Strptime.match_H text). intros cs.
  induction cs as [|c cs IH]; simpl; [discriminate|].
  destruct (Strptime.after_H c) as [[[h0 m0] r0]|] eqn:Hc.
  - intros [= -> -> ->] HH. apply HA in Hc as [-> Hm].
    specialize (HH c (or_introl eq_refl)).
    unfold time_valid; simpl. lia.
  - intros Hfm HH. apply IH; [assumption|]. intros c' Hc'. apply HH. now right.
Qed.

(** C3. The gate of [is_within_allowed_hours]: with [no_time_restrictions]
    it answers true whatever the window strings are; otherwise, for every
    time of day [now] and every window whose bounds parse as [%H:%M], it
    returns a boolean that is true iff [start <= now <= end] when
    [start <= end], and iff [now >= start] or [now <= end] when
    [start > end]. The four sample evaluations of the specification are
    included. *)
Theorem time_window_gate :
  (forall (s : Settings) (now : time),
     no_time_restrictions s = true ->
     is_within_allowed_hours s now = Val true)
  /\ (forall (s : Settings) (now start end_ : time),
        no_time_restrictions s = false ->
        Strptime.strptime_HM (start_time s) = Val start ->
        Strptime.strptime_HM (end_time s) = Val end_ ->
        exists b : bool,
          is_within_allowed_hours s now = Val b
          /\ (time_le start end_ ->
              (b = true <-> time_le start now /\ time_le now end_))
          /\ (~ time_le start end_ ->
              (b = true <-> time_le start now \/ time_le now end_)))
  /\ is_within_allowed_hours (window_settings "09:00" "17:00" false)
       (mk_time 10 0 0 0) = Val true
  /\ is_within_allowed_hours (window_settings "09:00" "17:00" false)
       (mk_time 20 0 0 0) = Val false
  /\ is_within_allowed_hours (window_settings "22:00" "06:00" false)
       (mk_time 23 30 0 0) = Val true
  /\ (forall (t : time) (start_text end_text : string),
        is_within_allowed_hours (window_settings start_text end_text true) t
        = Val true).
Proof.
  repeat split.
  - intros s now Hnr. unfold is_within_allowed_hours. now rewrite Hnr.
  - intros s now start end_ Hnr Hs He.
    unfold is_within_allowed_hours. rewrite Hnr, Hs, He.
    unfold time_le.
    destruct (time_leb start end_) eqn:Hse; eexists; (split; [reflexivity|]).
    + split; [intros _|intros Hn; congruence].
      rewrite andb_true_iff. tauto.
    + split; [intros Hn; congruence|intros _].
      rewrite orb_true_iff. tauto.
Qed.

Lemma time_window_gate_witness :
  exists b : bool,
    is_within_allowed_hours (window_settings "22:00" "06:00" false)
      (mk_time 5 59 59 999999) = Val b
    /\ (b = true <->
        time_le (mk_time 22 0 0 0) (mk_time 5 59 59 999999)
        \/ time_le (mk_time 5 59 59 999999) (mk_time 6 0 0 0)).
Proof.
  destruct (proj1 (proj2 time_window_gate)
              (window_settings "22:00" "06:00" false) (mk_time 5 59 59 999999)
              (mk_time 22 0 0 0) (mk_time 6 0 0 0)
              eq_refl eq_refl eq_refl) as (b & Hb & _ & Hcross).
  exists b. split; [exact Hb|].
  apply Hcross. unfold time_le. vm_compute. discriminate.
Defined.

